(** * shallow-fetch-sha: the option layer of the checkout tool

    A shallow embedding of [internal/cli/options.go]: the [Options]
    struct, its validation, the binding of positional arguments, the
    choice of a storage backend and the construction of credentials.

    Go strings are byte strings, so they are [string] (lists of
    [ascii]); [len] is [String.length].  A nilable pointer or interface
    is an [option].  A Go function returning [(T, error)] returns a
    pair whose second component is [option error]. *)

From Stdlib Require Import String Ascii List Bool Arith Lia.
Import ListNotations.
Local Open Scope string_scope.
Local Open Scope bool_scope.

(** ** Go values used by the package *)

Module Go.

(** The double-quote byte, for messages that contain one. *)
Definition dquote : string := String "034"%char EmptyString.

(** [s == the empty string]. *)
Definition is_empty (s : string) : bool :=
  match s with
  | EmptyString => true
  | String _ _ => false
  end.

(** Values of the [error] interface.  [errors.New] carries a text;
    [fmt.Errorf] is kept as its format and operands, so the key that
    an error names stays visible. *)
Inductive error : Type :=
| errors_New (text : string)
| fmt_Errorf (format : string) (args : list fmt_arg)
with fmt_arg : Type :=
| arg_string (s : string)
| arg_error (e : error).

(** What a function that may panic does. *)
Inductive outcome (A : Type) : Type :=
| Returns (a : A)
| Panics (reason : string).
Arguments Returns {A} a.
Arguments Panics {A} reason.

Definition nil_dereference : string :=
  "invalid memory address or nil pointer dereference".

(** [strings.Split(s, sep)] for a one-byte separator: the pieces of
    [s] around every occurrence of [sep]; always at least one piece. *)
Fixpoint strings_Split (s : string) (sep : ascii) : list string :=
  match s with
  | EmptyString => [EmptyString]
  | String c rest =>
      if Ascii.eqb c sep then EmptyString :: strings_Split rest sep
      else
        match strings_Split rest sep with
        | [] => [String c EmptyString]
        | piece :: pieces => String c piece :: pieces
        end
  end.

(** *** The fragment of [regexp] the package compiles

    [regHex] is a character class, repeated once or more, anchored
    at both ends of the text.  A class is a list of inclusive byte
    ranges. *)
Definition class := list (ascii * ascii).

Definition in_range (c : ascii) (r : ascii * ascii) : bool :=
  Nat.leb (nat_of_ascii (fst r)) (nat_of_ascii c) &&
  Nat.leb (nat_of_ascii c) (nat_of_ascii (snd r)).

Definition in_class (cls : class) (c : ascii) : bool :=
  existsb (in_range c) cls.

Inductive Regexp : Type :=
| anchored_plus (cls : class).

Fixpoint all_in_class (cls : class) (s : string) : bool :=
  match s with
  | EmptyString => true
  | String c rest => in_class cls c && all_in_class cls rest
  end.

Definition MatchString (re : Regexp) (s : string) : bool :=
  match re with
  | anchored_plus cls => negb (is_empty s) && all_in_class cls s
  end.

End Go.
Import Go.

(** ** The objects handed out by the wrapped Git library

    They are built by the library; the package only chooses which
    constructor to call, so each is kept as the call that made it. *)

Inductive billy_Filesystem : Type :=
| osfs_New (baseDir : string)
| memfs_New.

Inductive cache_Object : Type :=
| cache_NewObjectLRUDefault.

Inductive storage_Storer : Type :=
| filesystem_NewStorage (fs : option billy_Filesystem) (c : cache_Object)
| memory_NewStorage.

Definition git_GitDirName : string := ".git".

(** [net/url]: the part of a parsed URL that [Auth] reads. *)
Record url_Userinfo : Type := {
  ui_username : string;
  ui_password : string;
  ui_passwordSet : bool
}.

Record url_URL : Type := {
  URL_Scheme : string;
  URL_User : option url_Userinfo;
  URL_Host : string;
  URL_Path : string
}.

(** [Userinfo.Username], a method on the pointer; it is defined on a
    nil receiver. *)
Definition Userinfo_Username (u : option url_Userinfo) : string :=
  match u with
  | None => EmptyString
  | Some info => ui_username info
  end.

(** Credentials: [ssh.PublicKeys] and [http.BasicAuth], and the
    [transport.AuthMethod] interface that holds a pointer to either. *)
Record ssh_PublicKeys : Type := {
  pk_User : string;
  pk_Signer : string
}.

Record http_BasicAuth : Type := {
  http_Username : string;
  http_Password : string
}.

Inductive transport_AuthMethod : Type :=
| auth_ssh (keys : option ssh_PublicKeys)
| auth_http (basic : http_BasicAuth).

(** [logrus]: one entry as the package emits it. *)
Record log_Entry : Type := {
  log_Level : string;
  log_Fields : list (string * string);
  log_Message : string
}.

(** The calls whose result depends on the machine the tool runs on:
    the working directory, the file system and the key file.  Each has
    the shape of its Go signature. *)
Record Env : Type := {
  filepath_Abs : string -> string * option error;
  fs_Chroot : billy_Filesystem -> string -> option billy_Filesystem * option error;
  url_Parse : string -> option url_URL * option error;
  ssh_NewPublicKeysFromFile :
    string -> string -> string -> option ssh_PublicKeys * option error
}.

(** ** options.go *)

Definition StorageMode := string.
Definition FileSystemStorageMode : StorageMode := "fs".
Definition MemoryStorageMode : StorageMode := "mem".

Definition regHex_class : class :=
  [("0"%char, "9"%char); ("a"%char, "f"%char); ("A"%char, "F"%char)].

Definition regHex : Regexp := anchored_plus regHex_class.

Record SSHAuthOptions : Type := {
  PEMPath : string;
  Passphrase : string
}.

Record BasicAuthOptions : Type := {
  Username : string;
  Password : string
}.

Record Options : Type := {
  Repo : string;
  SHA : string;
  Directory : string;
  RemoveDotGit : bool;
  BasicAuth : option BasicAuthOptions;
  SSHAuth : option SSHAuthOptions;
  storage : option storage_Storer;
  worktree : option billy_Filesystem
}.

Definition is_nil {A : Type} (p : option A) : bool :=
  match p with
  | None => true
  | Some _ => false
  end.

Definition invalid (key msg : string) : error :=
  fmt_Errorf "%q is invalid: %s" [arg_string key; arg_string msg].

(** A function body that only returns errors is a sequence of blocks;
    a block either returns an error ([Some]) or falls through to the
    next statement ([None]). *)
Definition block := option error.

Definition fall_through : block := None.

Definition next (b rest : block) : block :=
  match b with
  | Some err => Some err
  | None => rest
  end.

Notation "b ;; rest" := (next b rest) (at level 90, right associativity).

(** [if cond { return err }]. *)
Definition if_return (cond : bool) (err : error) : block :=
  if cond then Some err else fall_through.

(** [if p != nil { body }], the body reading through the pointer. *)
Definition if_not_nil {A : Type} (p : option A) (body : A -> block) : block :=
  match p with
  | Some x => body x
  | None => fall_through
  end.

Definition msg_repo : string := "it is required".
Definition msg_sha : string := "must be full 40 hexadecimal character SHA1".
Definition msg_both : string :=
  "cannot specify both basic auth and ssh auth options".
Definition msg_username : string :=
  "required if password specified (if using token, set username to "
    ++ dquote ++ "token" ++ dquote ++ ")".
Definition msg_password : string := "required if username specified".
Definition msg_key_path : string := "required if ssh options set".
Definition msg_storage : string := "filesystem storage not initalized".

(** The test of line 103: [len(opts.SHA) != 40 || !regHex.MatchString(opts.SHA)]. *)
Definition sha_rejected (sha : string) : bool :=
  negb (Nat.eqb (String.length sha) 40) || negb (MatchString regHex sha).

Definition Validate (opts : Options) : option error :=
  if_return (is_empty (Repo opts)) (invalid "repo" msg_repo) ;;
  if_return (sha_rejected (SHA opts)) (invalid "sha" msg_sha) ;;
  if_return (negb (is_nil (BasicAuth opts)) && negb (is_nil (SSHAuth opts)))
            (errors_New msg_both) ;;
  if_not_nil (BasicAuth opts) (fun basic =>
    if_return (is_empty (Username basic)) (invalid "username" msg_username) ;;
    if_return (is_empty (Password basic)) (invalid "password" msg_password) ;;
    fall_through) ;;
  if_not_nil (SSHAuth opts) (fun ssh =>
    if_return (is_empty (PEMPath ssh)) (invalid "key-path" msg_key_path) ;;
    fall_through) ;;
  if_return (is_nil (worktree opts) || is_nil (storage opts))
            (errors_New msg_storage) ;;
  None.

Definition BindArgs (opts : Options) (args : list string)
  : option error * Options :=
  if negb (Nat.eqb (List.length args) 2) then
    (Some (errors_New
       "missing arguments: must specify both repo and sha arguments"), opts)
  else
    (None,
     {| Repo := nth 0 args EmptyString;
        SHA := nth 1 args EmptyString;
        Directory := Directory opts;
        RemoveDotGit := RemoveDotGit opts;
        BasicAuth := BasicAuth opts;
        SSHAuth := SSHAuth opts;
        storage := storage opts;
        worktree := worktree opts |}).

Definition set_backend (opts : Options) (wt : billy_Filesystem)
  (st : storage_Storer) : Options :=
  {| Repo := Repo opts;
     SHA := SHA opts;
     Directory := Directory opts;
     RemoveDotGit := RemoveDotGit opts;
     BasicAuth := BasicAuth opts;
     SSHAuth := SSHAuth opts;
     storage := Some st;
     worktree := Some wt |}.

Definition storage_mode_entry (mode : StorageMode) : log_Entry :=
  {| log_Level := "debug";
     log_Fields := [("storagemode", mode)];
     log_Message := "initalizing working tree and storage" |}.

Section WithEnv.

Variable env : Env.

(** The result is the returned error, the struct behind the receiver
    after the call, and the log entries written. *)
Definition SetStorageMode (opts : Options) (mode : StorageMode)
  : option error * Options * list log_Entry :=
  if is_empty (Directory opts) then
    (Some (errors_New "must initalize directory before setting storage mode"),
     opts, [])
  else
    let logged := [storage_mode_entry mode] in
    if String.eqb mode FileSystemStorageMode then
      let '(absDir, err) := filepath_Abs env (Directory opts) in
      match err with
      | Some err =>
          (Some (fmt_Errorf "invalid directory: %s" [arg_error err]),
           opts, logged)
      | None =>
          let wt := osfs_New absDir in
          let '(dotGit, err) := fs_Chroot env wt git_GitDirName in
          match err with
          | Some err => (Some err, opts, logged)
          | None =>
              (None,
               set_backend opts wt
                 (filesystem_NewStorage dotGit cache_NewObjectLRUDefault),
               logged)
          end
      end
    else if String.eqb mode MemoryStorageMode then
      (None, set_backend opts memfs_New memory_NewStorage, logged)
    else
      (Some (fmt_Errorf "%q is an invalid storage mode" [arg_string mode]),
       opts, logged).

Definition GetWorkTree (opts : Options) : option billy_Filesystem :=
  worktree opts.

Definition GetStorage (opts : Options) : option storage_Storer :=
  storage opts.

(** Lines 62 to 73: the user name for the SSH transport.  The inner
    block is entered when [url.Parse] reports an error, and reads
    [parsed.User] there. *)
Definition ssh_user (repo : string) : outcome string :=
  let user := "git" in
  let pieces := strings_Split repo ":"%char in
  if Nat.eqb (List.length pieces) 2 then
    let '(parsed, err) := url_Parse env (nth 0 pieces EmptyString) in
    if negb (is_nil err) then
      match parsed with
      | None => Panics nil_dereference
      | Some u =>
          let parsedUser := Userinfo_Username (URL_User u) in
          if negb (is_empty parsedUser) then Returns parsedUser
          else Returns user
      end
    else Returns user
  else Returns user.

Definition Auth (opts : Options)
  : outcome (option transport_AuthMethod * option error) :=
  match SSHAuth opts with
  | Some ssh =>
      match ssh_user (Repo opts) with
      | Panics reason => Panics reason
      | Returns user =>
          let '(keys, err) :=
            ssh_NewPublicKeysFromFile env user (PEMPath ssh) (Passphrase ssh) in
          Returns (Some (auth_ssh keys), err)
      end
  | None =>
      match BasicAuth opts with
      | Some basic =>
          let user := Username basic in
          let user := if is_empty user then "token" else user in
          Returns (Some (auth_http {| http_Username := Username basic;
                                      http_Password := Password basic |}),
                   None)
      | None => Returns (None, None)
      end
  end.

End WithEnv.

(** The returned error and the Options value left behind. *)
Definition returned_error {A B : Type} (r : option error * A * B)
  : option error := fst (fst r).

Definition options_after {B : Type} (r : option error * Options * B)
  : Options := snd (fst r).

(** ** BindFlags

    [pflag]: the two typed lookups of a [FlagSet] that the package
    calls.  Each returns the zero value together with an error when
    the flag is not defined or has another type. *)
Record FlagSet : Type := {
  GetString : string -> string * option error;
  GetBool : string -> bool * option error
}.

Definition set_Directory (opts : Options) (dir : string) : Options :=
  {| Repo := Repo opts; SHA := SHA opts; Directory := dir;
     RemoveDotGit := RemoveDotGit opts; BasicAuth := BasicAuth opts;
     SSHAuth := SSHAuth opts; storage := storage opts;
     worktree := worktree opts |}.

Definition set_RemoveDotGit (opts : Options) (rm : bool) : Options :=
  {| Repo := Repo opts; SHA := SHA opts; Directory := Directory opts;
     RemoveDotGit := rm; BasicAuth := BasicAuth opts;
     SSHAuth := SSHAuth opts; storage := storage opts;
     worktree := worktree opts |}.

Definition set_BasicAuth (opts : Options) (basic : option BasicAuthOptions)
  : Options :=
  {| Repo := Repo opts; SHA := SHA opts; Directory := Directory opts;
     RemoveDotGit := RemoveDotGit opts; BasicAuth := basic;
     SSHAuth := SSHAuth opts; storage := storage opts;
     worktree := worktree opts |}.

Definition set_SSHAuth (opts : Options) (ssh : option SSHAuthOptions)
  : Options :=
  {| Repo := Repo opts; SHA := SHA opts; Directory := Directory opts;
     RemoveDotGit := RemoveDotGit opts; BasicAuth := BasicAuth opts;
     SSHAuth := ssh; storage := storage opts;
     worktree := worktree opts |}.

(** [if p == nil { p = new(T) }]: the struct behind the pointer after
    the statement, a zero value when it had to be allocated. *)
Definition basic_or_new (p : option BasicAuthOptions) : BasicAuthOptions :=
  match p with
  | Some basic => basic
  | None => {| Username := EmptyString; Password := EmptyString |}
  end.

Definition ssh_or_new (p : option SSHAuthOptions) : SSHAuthOptions :=
  match p with
  | Some ssh => ssh
  | None => {| PEMPath := EmptyString; Passphrase := EmptyString |}
  end.

(** The four blocks [if flag != empty { allocate if nil; assign }]. *)
Definition bind_username (opts : Options) (username : string) : Options :=
  if negb (is_empty username) then
    set_BasicAuth opts
      (Some {| Username := username;
               Password := Password (basic_or_new (BasicAuth opts)) |})
  else opts.

Definition bind_password (opts : Options) (password : string) : Options :=
  if negb (is_empty password) then
    set_BasicAuth opts
      (Some {| Username := Username (basic_or_new (BasicAuth opts));
               Password := password |})
  else opts.

Definition bind_key_path (opts : Options) (keyPath : string) : Options :=
  if negb (is_empty keyPath) then
    set_SSHAuth opts
      (Some {| PEMPath := keyPath;
               Passphrase := Passphrase (ssh_or_new (SSHAuth opts)) |})
  else opts.

Definition bind_key_passphrase (opts : Options) (keyPhrase : string)
  : Options :=
  if negb (is_empty keyPhrase) then
    set_SSHAuth opts
      (Some {| PEMPath := PEMPath (ssh_or_new (SSHAuth opts));
               Passphrase := keyPhrase |})
  else opts.

(** The returned error and the struct behind the receiver after the
    call.  Assignments made before a failing lookup stay.  The structs
    behind BasicAuth and SSHAuth are updated in place; the model keeps
    their contents as read through this Options value. *)
Definition BindFlags (opts : Options) (flags : FlagSet)
  : option error * Options :=
  let '(dir, err) := GetString flags "directory" in
  match err with
  | Some err => (Some err, opts)
  | None =>
  let opts := set_Directory opts dir in
  let '(username, err) := GetString flags "username" in
  match err with
  | Some err => (Some err, opts)
  | None =>
  let opts := bind_username opts username in
  let '(password, err) := GetString flags "password" in
  match err with
  | Some err => (Some err, opts)
  | None =>
  let opts := bind_password opts password in
  let '(keyPath, err) := GetString flags "key-path" in
  match err with
  | Some err => (Some err, opts)
  | None =>
  let opts := bind_key_path opts keyPath in
  let '(keyPhrase, err) := GetString flags "key-passphrase" in
  match err with
  | Some err => (Some err, opts)
  | None =>
  let opts := bind_key_passphrase opts keyPhrase in
  let '(rmDotGit, err) := GetBool flags "rm-dotgit" in
  match err with
  | Some err => (Some err, opts)
  | None => (None, set_RemoveDotGit opts rmDotGit)
  end end end end end end.

(** ** Vocabulary for the properties below *)

(** The first non-nil error of a list, in order. *)
Fixpoint first_error (errs : list (option error)) : option error :=
  match errs with
  | [] => None
  | Some err :: _ => Some err
  | None :: rest => first_error rest
  end.

(** The errors of the six lookups of [BindFlags], in source order. *)
Definition lookup_errors (flags : FlagSet) : list (option error) :=
  [snd (GetString flags "directory"); snd (GetString flags "username");
   snd (GetString flags "password"); snd (GetString flags "key-path");
   snd (GetString flags "key-passphrase"); snd (GetBool flags "rm-dotgit")].

(** A flag value laid over a field: an empty flag leaves the field. *)
Definition overlay (flag old : string) : string :=
  if is_empty flag then old else flag.

(** Reading a field through a pointer that may be nil, nil standing
    for the zero struct. *)
Definition Username_of (p : option BasicAuthOptions) : string :=
  Username (basic_or_new p).

Definition Password_of (p : option BasicAuthOptions) : string :=
  Password (basic_or_new p).

Definition PEMPath_of (p : option SSHAuthOptions) : string :=
  PEMPath (ssh_or_new p).

Definition Passphrase_of (p : option SSHAuthOptions) : string :=
  Passphrase (ssh_or_new p).

(** Occurrences of a byte in a string. *)
Fixpoint count_byte (s : string) (c : ascii) : nat :=
  match s with
  | EmptyString => 0
  | String x rest => (if Ascii.eqb x c then 1 else 0) + count_byte rest c
  end.

(** The value [Auth] returns on the SSH path once the user is known. *)
Definition ssh_result (env : Env) (user : string) (ssh : SSHAuthOptions)
  : outcome (option transport_AuthMethod * option error) :=
  Returns (Some (auth_ssh
             (fst (ssh_NewPublicKeysFromFile env user (PEMPath ssh)
                     (Passphrase ssh)))),
           snd (ssh_NewPublicKeysFromFile env user (PEMPath ssh)
                  (Passphrase ssh))).

(** What [net/url] guarantees of [url.Parse]: with a non-nil error the
    returned URL is nil. *)
Definition nil_on_error (env : Env) : Prop :=
  forall raw parsed err, url_Parse env raw = (parsed, Some err) -> parsed = None.

(** ** The SHA as the glossary words it

    A string of exactly 40 hexadecimal characters: digits 0-9 and
    letters a-f or A-F.  This is the wording of the specification; the
    code's test is [sha_rejected]. *)

Definition hexadecimal_characters : list ascii :=
  list_ascii_of_string "0123456789abcdefABCDEF".

Definition is_hexadecimal (c : ascii) : Prop :=
  In c hexadecimal_characters.

Definition forty_hex_characters (s : string) : Prop :=
  String.length s = 40 /\ Forall is_hexadecimal (list_ascii_of_string s).

(** Everything [Validate] asks of an Options value. *)
Definition acceptable (opts : Options) : Prop :=
  Repo opts <> EmptyString
  /\ forty_hex_characters (SHA opts)
  /\ (BasicAuth opts = None \/ SSHAuth opts = None)
  /\ (forall basic, BasicAuth opts = Some basic ->
        Username basic <> EmptyString /\ Password basic <> EmptyString)
  /\ (forall ssh, SSHAuth opts = Some ssh -> PEMPath ssh <> EmptyString)
  /\ worktree opts <> None
  /\ storage opts <> None.

(** ** A machine to run the examples on

    One concrete [Env].  Paths are joined without cleaning, which is
    what [filepath] does on the plain names used below.  [url_Parse]
    keeps the two guards by which [net/url] rejects a string that has
    neither scheme nor authority (a control byte, a percent sign that
    does not start an escape) and otherwise returns the string as the
    path of a URL without user information; it agrees with [net/url] on
    the addresses of the examples. *)

Module Sample.

Definition is_rooted (path : string) : bool :=
  match path with
  | String "/"%char _ => true
  | _ => false
  end.

Definition abs_from (cwd : option string) (path : string)
  : string * option error :=
  if is_rooted path then (path, None)
  else
    match cwd with
    | Some wd => (wd ++ "/" ++ path, None)
    | None => (EmptyString, Some (errors_New "getwd: no such file or directory"))
    end.

Definition chroot_under (fs : billy_Filesystem) (path : string)
  : option billy_Filesystem * option error :=
  match fs with
  | osfs_New base => (Some (osfs_New (base ++ "/" ++ path)), None)
  | memfs_New => (Some memfs_New, None)
  end.

Definition is_control (c : ascii) : bool :=
  Nat.ltb (nat_of_ascii c) 32 || Nat.eqb (nat_of_ascii c) 127.

Fixpoint has_control (s : string) : bool :=
  match s with
  | EmptyString => false
  | String c rest => is_control c || has_control rest
  end.

Definition ishex (c : ascii) : bool := in_class regHex_class c.

Fixpoint escapes_ok (s : string) : bool :=
  match s with
  | EmptyString => true
  | String c rest =>
      if Ascii.eqb c "%"%char then
        match rest with
        | String h1 (String h2 rest') => ishex h1 && ishex h2 && escapes_ok rest'
        | _ => false
        end
      else escapes_ok rest
  end.

Definition parse_path (raw : string) : option url_URL * option error :=
  if has_control raw then
    (None, Some (errors_New "net/url: invalid control character in URL"))
  else if negb (escapes_ok raw) then
    (None, Some (errors_New "invalid URL escape"))
  else
    (Some {| URL_Scheme := EmptyString; URL_User := None;
             URL_Host := EmptyString; URL_Path := raw |}, None).

(** The key files on the machine: path and contents. *)
Definition key_files : list (string * string) :=
  [("/keys/id_ed25519", "ed25519-private-key")].

Fixpoint read_file (files : list (string * string)) (path : string)
  : option string :=
  match files with
  | [] => None
  | (p, body) :: more =>
      if String.eqb p path then Some body else read_file more path
  end.

Definition keys_from_file (user pemFile password : string)
  : option ssh_PublicKeys * option error :=
  match read_file key_files pemFile with
  | Some body => (Some {| pk_User := user; pk_Signer := body |}, None)
  | None => (None, Some (errors_New "open: no such file or directory"))
  end.

Definition env_at (cwd : option string) : Env :=
  {| filepath_Abs := abs_from cwd;
     fs_Chroot := chroot_under;
     url_Parse := parse_path;
     ssh_NewPublicKeysFromFile := keys_from_file |}.

(** Started in a home directory. *)
Definition env : Env := env_at (Some "/home/dev").

(** Started in a directory that has since been removed. *)
Definition env_no_cwd : Env := env_at None.

Definition sha1 : string := "0123456789abcdef0123456789ABCDEF01234567".

Definition blank : Options :=
  {| Repo := EmptyString; SHA := EmptyString; Directory := EmptyString;
     RemoveDotGit := false; BasicAuth := None; SSHAuth := None;
     storage := None; worktree := None |}.

Definition pinned (repo : string) : Options :=
  {| Repo := repo; SHA := sha1; Directory := "checkout";
     RemoveDotGit := false; BasicAuth := None; SSHAuth := None;
     storage := None; worktree := None |}.

Definition with_auth (opts : Options) (basic : option BasicAuthOptions)
  (ssh : option SSHAuthOptions) : Options :=
  {| Repo := Repo opts; SHA := SHA opts; Directory := Directory opts;
     RemoveDotGit := RemoveDotGit opts; BasicAuth := basic; SSHAuth := ssh;
     storage := storage opts; worktree := worktree opts |}.

(** A user with both basic-auth fields, and no backend chosen yet. *)
Definition dev : BasicAuthOptions :=
  {| Username := "dev"; Password := "s3cret" |}.

Definition dev_options : Options :=
  with_auth (pinned "https://example.org/r.git") (Some dev) None.

(** The same options after a backend has been chosen. *)
Definition backed (opts : Options) : Options :=
  set_backend opts memfs_New memory_NewStorage.

Definition deploy_key : SSHAuthOptions :=
  {| PEMPath := "/keys/id_ed25519"; Passphrase := EmptyString |}.

(** An scp-like address whose host holds a stray percent sign. *)
Definition stray_percent : Options :=
  with_auth (pinned "git@host%:org/repo.git") None (Some deploy_key).

(** An scp-like address whose host holds an escape that is not
    hexadecimal. *)
Definition bad_escape : Options :=
  with_auth (pinned "git@exa%mple.org:org/repo.git") None (Some deploy_key).

End Sample.

(** A [pflag] flag set for the examples: the defined flags with their
    typed values; a lookup fails on an undefined flag and on a flag of
    another type. *)
Module SampleFlags.

Inductive flag_Value : Type :=
| string_flag (v : string)
| bool_flag (v : bool).

Definition flag_type (v : flag_Value) : string :=
  match v with
  | string_flag _ => "string"
  | bool_flag _ => "bool"
  end.

Fixpoint Lookup (defs : list (string * flag_Value)) (name : string)
  : option flag_Value :=
  match defs with
  | [] => None
  | (n, v) :: more => if String.eqb n name then Some v else Lookup more name
  end.

Definition not_defined (name : string) : error :=
  fmt_Errorf "flag accessed but not defined: %s" [arg_string name].

Definition wrong_type (wanted : string) (v : flag_Value) : error :=
  fmt_Errorf "trying to get %s value of flag of type %s"
    [arg_string wanted; arg_string (flag_type v)].

Definition get_string (defs : list (string * flag_Value)) (name : string)
  : string * option error :=
  match Lookup defs name with
  | None => (EmptyString, Some (not_defined name))
  | Some (string_flag v) => (v, None)
  | Some v => (EmptyString, Some (wrong_type "string" v))
  end.

Definition get_bool (defs : list (string * flag_Value)) (name : string)
  : bool * option error :=
  match Lookup defs name with
  | None => (false, Some (not_defined name))
  | Some (bool_flag v) => (v, None)
  | Some v => (false, Some (wrong_type "bool" v))
  end.

Definition flag_set (defs : list (string * flag_Value)) : FlagSet :=
  {| GetString := get_string defs; GetBool := get_bool defs |}.

(** The command line [--directory checkout --password tok]. *)
Definition token_only : FlagSet :=
  flag_set [("directory", string_flag "checkout");
            ("username", string_flag EmptyString);
            ("password", string_flag "tok");
            ("key-path", string_flag EmptyString);
            ("key-passphrase", string_flag EmptyString);
            ("rm-dotgit", bool_flag false)].

(** The command line [--directory checkout --key-passphrase pw]. *)
Definition passphrase_only : FlagSet :=
  flag_set [("directory", string_flag "checkout");
            ("username", string_flag EmptyString);
            ("password", string_flag EmptyString);
            ("key-path", string_flag EmptyString);
            ("key-passphrase", string_flag "pw");
            ("rm-dotgit", bool_flag false)].

(** The command line [--directory checkout --rm-dotgit]. *)
Definition plain : FlagSet :=
  flag_set [("directory", string_flag "checkout");
            ("username", string_flag EmptyString);
            ("password", string_flag EmptyString);
            ("key-path", string_flag EmptyString);
            ("key-passphrase", string_flag EmptyString);
            ("rm-dotgit", bool_flag true)].

(** The command line [--directory checkout --username dev --password
    s3cret --rm-dotgit]. *)
Definition basic_auth : FlagSet :=
  flag_set [("directory", string_flag "checkout");
            ("username", string_flag "dev");
            ("password", string_flag "s3cret");
            ("key-path", string_flag EmptyString);
            ("key-passphrase", string_flag EmptyString);
            ("rm-dotgit", bool_flag true)].

(** A command whose [rm-dotgit] flag was declared as a string. *)
Definition mistyped_rm : FlagSet :=
  flag_set [("directory", string_flag "checkout");
            ("username", string_flag "dev");
            ("password", string_flag "s3cret");
            ("key-path", string_flag EmptyString);
            ("key-passphrase", string_flag EmptyString);
            ("rm-dotgit", string_flag "yes")].

End SampleFlags.

(** ** Small facts about the Go values *)

Lemma is_empty_true (s : string) : is_empty s = true <-> s = EmptyString.
Proof. destruct s; simpl; split; congruence. Qed.

Lemma is_empty_false (s : string) : is_empty s = false <-> s <> EmptyString.
Proof. destruct s; simpl; split; congruence. Qed.

Lemma is_nil_false {A : Type} (p : option A) : is_nil p = false <-> p <> None.
Proof. destruct p; simpl; split; congruence. Qed.

(** The byte ranges of [regHex] hold the 22 hexadecimal characters and
    nothing else. *)
Lemma regHex_class_listed (c : ascii) :
  in_class regHex_class c = existsb (Ascii.eqb c) hexadecimal_characters.
Proof.
  destruct c as [[] [] [] [] [] [] [] []]; vm_compute; reflexivity.
Qed.

Lemma regHex_class_hexadecimal (c : ascii) :
  in_class regHex_class c = true <-> is_hexadecimal c.
Proof.
  rewrite regHex_class_listed, existsb_exists. unfold is_hexadecimal. split.
  - intros [x [Hin Heq]]. apply Ascii.eqb_eq in Heq. now subst.
  - intros Hin. exists c. split; [assumption | apply Ascii.eqb_refl].
Qed.

Lemma all_in_class_Forall (s : string) :
  all_in_class regHex_class s = true
  <-> Forall is_hexadecimal (list_ascii_of_string s).
Proof.
  induction s as [| c rest IH].
  - simpl. split; [constructor | reflexivity].
  - cbn [all_in_class list_ascii_of_string].
    rewrite andb_true_iff, regHex_class_hexadecimal, IH. split.
    + intros [Hc Hrest]. now constructor.
    + intros H. inversion H; subst. now split.
Qed.

(** The test of line 103 accepts exactly the strings of 40 hexadecimal
    characters. *)
Lemma sha_rejected_false (sha : string) :
  sha_rejected sha = false <-> forty_hex_characters sha.
Proof.
  unfold sha_rejected, forty_hex_characters, MatchString, regHex.
  rewrite orb_false_iff, !negb_false_iff, andb_true_iff, Nat.eqb_eq.
  rewrite all_in_class_Forall, negb_true_iff, is_empty_false.
  split.
  - intros [Hlen [_ Hall]]. now split.
  - intros [Hlen Hall]. repeat split; try assumption.
    intros ->. discriminate Hlen.
Qed.

Lemma sha_rejected_true (sha : string) :
  sha_rejected sha = true <-> ~ forty_hex_characters sha.
Proof.
  rewrite <- sha_rejected_false. destruct (sha_rejected sha); split;
    congruence.
Qed.

(** ** Validate *)

Module ValidateExamples.
Import Sample.

Example complete_options_pass :
  Validate (backed (pinned "https://example.org/r.git")) = None.
Proof. reflexivity. Qed.

Example short_sha_is_refused :
  Validate (backed {| Repo := "r"; SHA := "abc123"; Directory := "d";
                      RemoveDotGit := false; BasicAuth := None;
                      SSHAuth := None; storage := None; worktree := None |})
  = Some (invalid "sha" msg_sha).
Proof. reflexivity. Qed.

Example trailing_newline_is_refused :
  sha_rejected ("0123456789abcdef0123456789ABCDEF0123456" ++ String "010"%char EmptyString)
  = true.
Proof. reflexivity. Qed.

Example storage_is_checked_last :
  Validate (pinned "https://example.org/r.git") = Some (errors_New msg_storage).
Proof. reflexivity. Qed.
End ValidateExamples.

(** Unfold the body of [Validate] down to its tests. *)
Ltac open_validate :=
  unfold Validate, if_return, if_not_nil, next, fall_through.

(** The first two statements of [Validate], once both tests are known
    to fail, leave the rest of the body. *)
Lemma Validate_after_sha (opts : Options) :
  is_empty (Repo opts) = false ->
  sha_rejected (SHA opts) = false ->
  Validate opts =
    (if_return (negb (is_nil (BasicAuth opts)) && negb (is_nil (SSHAuth opts)))
               (errors_New msg_both) ;;
     if_not_nil (BasicAuth opts) (fun basic =>
       if_return (is_empty (Username basic)) (invalid "username" msg_username) ;;
       if_return (is_empty (Password basic)) (invalid "password" msg_password) ;;
       fall_through) ;;
     if_not_nil (SSHAuth opts) (fun ssh =>
       if_return (is_empty (PEMPath ssh)) (invalid "key-path" msg_key_path) ;;
       fall_through) ;;
     if_return (is_nil (worktree opts) || is_nil (storage opts))
               (errors_New msg_storage) ;;
     None).
Proof.
  intros Hrepo Hsha. unfold Validate at 1. rewrite Hrepo, Hsha. reflexivity.
Qed.

(** The error for the SHA is distinct from every other error [Validate]
    can return. *)
Lemma Validate_sha_error_only_from_sha (opts : Options) :
  Validate opts = Some (invalid "sha" msg_sha) ->
  sha_rejected (SHA opts) = true.
Proof.
  destruct (sha_rejected (SHA opts)) eqn:Hsha; [reflexivity |].
  open_validate. rewrite Hsha.
  destruct (is_empty (Repo opts)); [discriminate |].
  destruct (BasicAuth opts) as [basic |], (SSHAuth opts) as [ssh |]; simpl;
    repeat match goal with
           | |- context [if ?b then _ else _] => destruct b
           end; discriminate.
Qed.

(** C1, as amended: for every Options value whose Repo is non-empty,
    Validate returns the error naming the sha key if and only if the SHA
    field is not a string of exactly 40 hexadecimal characters.  (With a
    well-formed SHA Validate can still return an error from one of its
    later checks.) *)
Theorem Validate_sha_error_iff (opts : Options) :
  Repo opts <> EmptyString ->
  Validate opts = Some (invalid "sha" msg_sha)
  <-> ~ forty_hex_characters (SHA opts).
Proof.
  intros Hrepo. apply is_empty_false in Hrepo.
  rewrite <- sha_rejected_true. split.
  - apply Validate_sha_error_only_from_sha.
  - intros Hsha. open_validate. now rewrite Hrepo, Hsha.
Qed.

Lemma Validate_sha_error_iff_witness :
  "r" <> EmptyString
  /\ (Validate {| Repo := "r"; SHA := "xyz"; Directory := EmptyString;
                  RemoveDotGit := false; BasicAuth := None; SSHAuth := None;
                  storage := None; worktree := None |}
      = Some (invalid "sha" msg_sha)
      <-> ~ forty_hex_characters "xyz").
Proof.
  split; [discriminate |].
  apply (Validate_sha_error_iff
           {| Repo := "r"; SHA := "xyz"; Directory := EmptyString;
              RemoveDotGit := false; BasicAuth := None; SSHAuth := None;
              storage := None; worktree := None |}).
  simpl. discriminate.
Defined.

(** C1, as first stated, fails: with a non-empty Repo and a SHA of 40
    hexadecimal characters, Validate still returns an error when no
    storage backend has been chosen. *)
Lemma Validate_error_with_wellformed_sha :
  Repo (Sample.pinned "r") <> EmptyString
  /\ ~ (Validate (Sample.pinned "r") <> None
        <-> ~ forty_hex_characters (SHA (Sample.pinned "r"))).
Proof.
  split; [discriminate |].
  intros [Hto _]. apply Hto; [discriminate |].
  apply sha_rejected_false. reflexivity.
Qed.

(** C2: for every Options value with empty Repo, Validate returns the
    error that names the repo key as required, whatever the other
    fields hold. *)
Theorem Validate_empty_repo (opts : Options) :
  Repo opts = EmptyString ->
  Validate opts = Some (invalid "repo" msg_repo).
Proof.
  intros Hrepo. open_validate. now rewrite Hrepo.
Qed.

Lemma Validate_empty_repo_witness :
  Validate
    {| Repo := EmptyString; SHA := Sample.sha1; Directory := "checkout";
       RemoveDotGit := true;
       BasicAuth := Some {| Username := "u"; Password := "p" |};
       SSHAuth := None;
       storage := Some memory_NewStorage; worktree := Some memfs_New |}
  = Some (invalid "repo" msg_repo).
Proof.
  apply Validate_empty_repo. reflexivity.
Defined.

(** C3: auth modes are mutually exclusive.  For every Options value
    that passes the repo and SHA checks and has both BasicAuth and
    SSHAuth non-nil, Validate returns an error (the one saying that
    both cannot be specified). *)
Theorem Validate_both_auth_modes (opts : Options)
  (basic : BasicAuthOptions) (ssh : SSHAuthOptions) :
  is_empty (Repo opts) = false ->
  sha_rejected (SHA opts) = false ->
  BasicAuth opts = Some basic ->
  SSHAuth opts = Some ssh ->
  Validate opts = Some (errors_New msg_both).
Proof.
  intros Hrepo Hsha Hbasic Hssh.
  rewrite Validate_after_sha by assumption.
  now rewrite Hbasic, Hssh.
Qed.

Lemma Validate_both_auth_modes_witness :
  Validate
    (Sample.with_auth (Sample.pinned "git@example.org:r.git")
       (Some {| Username := "u"; Password := "p" |})
       (Some {| PEMPath := "/keys/id_ed25519"; Passphrase := EmptyString |}))
  = Some (errors_New msg_both).
Proof.
  apply (Validate_both_auth_modes
           (Sample.with_auth (Sample.pinned "git@example.org:r.git")
              (Some {| Username := "u"; Password := "p" |})
              (Some {| PEMPath := "/keys/id_ed25519"; Passphrase := EmptyString |}))
           {| Username := "u"; Password := "p" |}
           {| PEMPath := "/keys/id_ed25519"; Passphrase := EmptyString |});
    reflexivity.
Defined.





(** ** BindArgs *)

Example BindArgs_two :
  BindArgs Sample.blank ["https://example.org/r.git"; Sample.sha1]
  = (None,
     {| Repo := "https://example.org/r.git"; SHA := Sample.sha1;
        Directory := EmptyString; RemoveDotGit := false; BasicAuth := None;
        SSHAuth := None; storage := None; worktree := None |}).
Proof. reflexivity. Qed.

Example BindArgs_three :
  BindArgs Sample.blank ["a"; "b"; "c"]
  = (Some (errors_New
       "missing arguments: must specify both repo and sha arguments"),
     Sample.blank).
Proof. reflexivity. Qed.

(** C10: BindArgs returns an error if and only if the argument list does
    not have exactly two elements; on success Repo is the first
    argument, SHA the second and every other field is as before; on
    error the Options value is unchanged. *)
Theorem BindArgs_spec (opts : Options) (args : list string) :
  (fst (BindArgs opts args) <> None <-> List.length args <> 2)
  /\ (forall repo sha, args = [repo; sha] ->
        BindArgs opts args =
          (None,
           {| Repo := repo; SHA := sha;
              Directory := Directory opts;
              RemoveDotGit := RemoveDotGit opts;
              BasicAuth := BasicAuth opts;
              SSHAuth := SSHAuth opts;
              storage := storage opts;
              worktree := worktree opts |}))
  /\ (List.length args <> 2 -> snd (BindArgs opts args) = opts).
Proof.
  unfold BindArgs. repeat split.
  - destruct (Nat.eqb_spec (List.length args) 2) as [Heq | Hne]; simpl.
    + intros H. now contradiction H.
    + intros _. exact Hne.
  - destruct (Nat.eqb_spec (List.length args) 2); simpl; [| discriminate].
    intros H. contradiction.
  - intros repo sha ->. reflexivity.
  - intros Hne. apply Nat.eqb_neq in Hne. now rewrite Hne.
Qed.

(** ** SetStorageMode *)

Module StorageExamples.
Import Sample.

Example fs_mode :
  SetStorageMode env (pinned "r") FileSystemStorageMode
  = (None,
     set_backend (pinned "r") (osfs_New "/home/dev/checkout")
       (filesystem_NewStorage (Some (osfs_New "/home/dev/checkout/.git"))
          cache_NewObjectLRUDefault),
     [storage_mode_entry "fs"]).
Proof. reflexivity. Qed.

Example mem_mode :
  SetStorageMode env (pinned "r") MemoryStorageMode
  = (None, set_backend (pinned "r") memfs_New memory_NewStorage,
     [storage_mode_entry "mem"]).
Proof. reflexivity. Qed.

Example other_mode :
  SetStorageMode env (pinned "r") "disk"
  = (Some (fmt_Errorf "%q is an invalid storage mode" [arg_string "disk"]),
     pinned "r", [storage_mode_entry "disk"]).
Proof. reflexivity. Qed.

Example fs_mode_without_cwd :
  SetStorageMode env_no_cwd (pinned "r") FileSystemStorageMode
  = (Some (fmt_Errorf "invalid directory: %s"
             [arg_error (errors_New "getwd: no such file or directory")]),
     pinned "r", [storage_mode_entry "fs"]).
Proof. reflexivity. Qed.
End StorageExamples.

(** C6: the directory argument is validated.  For every Options value
    with empty Directory and every mode, fs and mem included,
    SetStorageMode returns an error and leaves worktree and storage (in
    fact the whole value) unchanged. *)
Theorem SetStorageMode_empty_directory
  (env : Env) (opts : Options) (mode : StorageMode) :
  Directory opts = EmptyString ->
  SetStorageMode env opts mode
  = (Some (errors_New "must initalize directory before setting storage mode"),
     opts, []).
Proof.
  intros Hdir. unfold SetStorageMode. now rewrite Hdir.
Qed.

Lemma SetStorageMode_empty_directory_witness :
  SetStorageMode Sample.env Sample.blank MemoryStorageMode
  = (Some (errors_New "must initalize directory before setting storage mode"),
     Sample.blank, []).
Proof.
  apply SetStorageMode_empty_directory. reflexivity.
Defined.

(** C5, as amended: for every Options value with non-empty Directory,
    SetStorageMode with mode fs, when the absolute form of Directory and
    the chroot into its .git sub-directory are both obtained, returns no
    error and sets the worktree to an OS filesystem rooted at that
    absolute path and the storage to on-disk filesystem storage under
    the .git sub-directory; when either step reports an error it returns
    an error and leaves the Options value unchanged.  With mode mem it
    sets an in-memory worktree and in-memory storage.  With any other
    mode string it returns an error and leaves worktree and storage
    unchanged. *)
Theorem SetStorageMode_modes (env : Env) (opts : Options) :
  Directory opts <> EmptyString ->
  (forall absDir dotGit,
      filepath_Abs env (Directory opts) = (absDir, None) ->
      fs_Chroot env (osfs_New absDir) git_GitDirName = (dotGit, None) ->
      returned_error (SetStorageMode env opts FileSystemStorageMode) = None
      /\ options_after (SetStorageMode env opts FileSystemStorageMode)
         = set_backend opts (osfs_New absDir)
             (filesystem_NewStorage dotGit cache_NewObjectLRUDefault))
  /\ (forall absDir err,
        filepath_Abs env (Directory opts) = (absDir, Some err) ->
        returned_error (SetStorageMode env opts FileSystemStorageMode)
        = Some (fmt_Errorf "invalid directory: %s" [arg_error err])
        /\ options_after (SetStorageMode env opts FileSystemStorageMode) = opts)
  /\ (forall absDir dotGit err,
        filepath_Abs env (Directory opts) = (absDir, None) ->
        fs_Chroot env (osfs_New absDir) git_GitDirName = (dotGit, Some err) ->
        returned_error (SetStorageMode env opts FileSystemStorageMode) = Some err
        /\ options_after (SetStorageMode env opts FileSystemStorageMode) = opts)
  /\ (returned_error (SetStorageMode env opts MemoryStorageMode) = None
      /\ options_after (SetStorageMode env opts MemoryStorageMode)
         = set_backend opts memfs_New memory_NewStorage)
  /\ (forall mode,
        mode <> FileSystemStorageMode -> mode <> MemoryStorageMode ->
        returned_error (SetStorageMode env opts mode)
        = Some (fmt_Errorf "%q is an invalid storage mode" [arg_string mode])
        /\ options_after (SetStorageMode env opts mode) = opts).
Proof.
  intros Hdir. apply is_empty_false in Hdir.
  unfold returned_error, options_after, SetStorageMode. rewrite Hdir.
  repeat apply conj.
  - intros absDir dotGit Habs Hchroot. simpl String.eqb.
    rewrite Habs, Hchroot. now split.
  - intros absDir err Habs. simpl String.eqb. rewrite Habs. now split.
  - intros absDir dotGit err Habs Hchroot. simpl String.eqb.
    rewrite Habs, Hchroot. now split.
  - reflexivity.
  - reflexivity.
  - intros mode Hfs Hmem.
    apply String.eqb_neq in Hfs, Hmem. rewrite Hfs, Hmem. now split.
Qed.

Lemma SetStorageMode_modes_witness :
  options_after
    (SetStorageMode Sample.env (Sample.pinned "r") FileSystemStorageMode)
  = set_backend (Sample.pinned "r") (osfs_New "/home/dev/checkout")
      (filesystem_NewStorage (Some (osfs_New "/home/dev/checkout/.git"))
         cache_NewObjectLRUDefault).
Proof.
  refine (proj2 (proj1
    (SetStorageMode_modes Sample.env (Sample.pinned "r") _) _ _ eq_refl eq_refl)).
  discriminate.
Defined.

(** C5, as first stated, fails: Directory is non-empty and the mode is
    fs, but the working directory cannot be determined, so no absolute
    form exists; SetStorageMode returns an error and worktree and
    storage stay nil. *)
Lemma SetStorageMode_fs_without_cwd :
  Directory (Sample.pinned "r") <> EmptyString
  /\ returned_error
       (SetStorageMode Sample.env_no_cwd (Sample.pinned "r") FileSystemStorageMode)
     <> None
  /\ worktree (options_after
       (SetStorageMode Sample.env_no_cwd (Sample.pinned "r") FileSystemStorageMode))
     = None
  /\ storage (options_after
       (SetStorageMode Sample.env_no_cwd (Sample.pinned "r") FileSystemStorageMode))
     = None.
Proof.
  repeat split; discriminate.
Qed.

(** ** Auth *)

Module AuthExamples.
Import Sample.

Example split_scp_address :
  strings_Split "git@example.org:org/repo.git" ":"%char
  = ["git@example.org"; "org/repo.git"].
Proof. reflexivity. Qed.

Example split_https_address :
  strings_Split "https://example.org:8443/r.git" ":"%char
  = ["https"; "//example.org"; "8443/r.git"].
Proof. reflexivity. Qed.

Example split_without_separator :
  strings_Split "repo" ":"%char = ["repo"].
Proof. reflexivity. Qed.

Example ssh_user_of_scp_address :
  ssh_user env "deploy@example.org:org/repo.git" = Returns "git".
Proof. reflexivity. Qed.

Example Auth_with_key :
  Auth env (with_auth (pinned "git@example.org:org/repo.git") None
              (Some deploy_key))
  = Returns (Some (auth_ssh (Some {| pk_User := "git";
                                     pk_Signer := "ed25519-private-key" |})),
             None).
Proof. reflexivity. Qed.

Example Auth_with_missing_key :
  Auth env (with_auth (pinned "git@example.org:org/repo.git") None
              (Some {| PEMPath := "/keys/none"; Passphrase := "pw" |}))
  = Returns (Some (auth_ssh None),
             Some (errors_New "open: no such file or directory")).
Proof. reflexivity. Qed.

Example Auth_with_token :
  Auth env (with_auth (pinned "https://example.org/r.git")
              (Some {| Username := EmptyString; Password := "tok" |}) None)
  = Returns (Some (auth_http {| http_Username := EmptyString;
                                http_Password := "tok" |}), None).
Proof. reflexivity. Qed.
End AuthExamples.

(** Without SSH options [Auth] does not look at the environment. *)
Lemma Auth_without_ssh (env : Env) (opts : Options) :
  SSHAuth opts = None ->
  Auth env opts =
    match BasicAuth opts with
    | Some basic =>
        Returns (Some (auth_http {| http_Username := Username basic;
                                    http_Password := Password basic |}), None)
    | None => Returns (None, None)
    end.
Proof.
  intros Hssh. unfold Auth. rewrite Hssh.
  destruct (BasicAuth opts); reflexivity.
Qed.

(** With SSH options, and a user name that resolves, [Auth] hands the
    key file and passphrase to the library and returns what it gets. *)
Lemma Auth_with_ssh (env : Env) (opts : Options) (ssh : SSHAuthOptions)
  (user : string) :
  SSHAuth opts = Some ssh ->
  ssh_user env (Repo opts) = Returns user ->
  Auth env opts =
    Returns (Some (auth_ssh
               (fst (ssh_NewPublicKeysFromFile env user (PEMPath ssh)
                       (Passphrase ssh)))),
             snd (ssh_NewPublicKeysFromFile env user (PEMPath ssh)
                    (Passphrase ssh))).
Proof.
  intros Hssh Huser. unfold Auth. rewrite Hssh, Huser.
  destruct (ssh_NewPublicKeysFromFile env user (PEMPath ssh) (Passphrase ssh));
    reflexivity.
Qed.

(** The user-name block panics exactly when its guard lets a nil parse
    result through. *)
Lemma ssh_user_panics (env : Env) (repo prefix rest : string) (err : error) :
  strings_Split repo ":"%char = [prefix; rest] ->
  url_Parse env prefix = (None, Some err) ->
  ssh_user env repo = Panics nil_dereference.
Proof.
  intros Hsplit Hparse. unfold ssh_user.
  rewrite Hsplit. simpl. now rewrite Hparse.
Qed.

(** C7, at the failing input: SSHAuth is non-nil and Repo is an
    scp-like address with a stray percent sign before the colon.  Auth
    returns neither a public-key method nor a key-loading error: it
    panics on a nil dereference. *)
Theorem Auth_panics_on_stray_percent :
  Validate (Sample.backed Sample.stray_percent) = None
  /\ Auth Sample.env Sample.stray_percent = Panics nil_dereference.
Proof.
  split; reflexivity.
Qed.

(** C8: for every Options value with SSHAuth nil and BasicAuth non-nil,
    the HTTP basic-auth credential returned by Auth carries the Username
    and Password of BasicAuth verbatim; when that Username is empty the
    credential's Username is empty too, the token default being
    computed and dropped. *)
Theorem Auth_basic_verbatim (env : Env) (opts : Options)
  (basic : BasicAuthOptions) :
  SSHAuth opts = None ->
  BasicAuth opts = Some basic ->
  exists cred,
    Auth env opts = Returns (Some (auth_http cred), None)
    /\ http_Username cred = Username basic
    /\ http_Password cred = Password basic
    /\ (Username basic = EmptyString -> http_Username cred = EmptyString).
Proof.
  intros Hssh Hbasic.
  exists {| http_Username := Username basic; http_Password := Password basic |}.
  rewrite (Auth_without_ssh env opts Hssh), Hbasic.
  repeat split. intros H. exact H.
Qed.

Lemma Auth_basic_verbatim_witness :
  exists cred,
    Auth Sample.env
      (Sample.with_auth (Sample.pinned "https://example.org/r.git")
         (Some {| Username := EmptyString; Password := "tok" |}) None)
    = Returns (Some (auth_http cred), None)
    /\ http_Username cred = EmptyString
    /\ http_Password cred = "tok"
    /\ (EmptyString = EmptyString -> http_Username cred = EmptyString).
Proof.
  exact (Auth_basic_verbatim Sample.env
           (Sample.with_auth (Sample.pinned "https://example.org/r.git")
              (Some {| Username := EmptyString; Password := "tok" |}) None)
           {| Username := EmptyString; Password := "tok" |}
           eq_refl eq_refl).
Defined.

(** C9, where the code departs from it: for every Options value with
    SSHAuth non-nil whose Repo holds exactly one colon, if url.Parse
    rejects the prefix (so that its result is nil), Auth enters the
    block that reads the user name out of the parse result and panics
    on the nil dereference. *)
Theorem Auth_nil_dereference (env : Env) (opts : Options)
  (ssh : SSHAuthOptions) (prefix rest : string) (err : error) :
  SSHAuth opts = Some ssh ->
  strings_Split (Repo opts) ":"%char = [prefix; rest] ->
  url_Parse env prefix = (None, Some err) ->
  Auth env opts = Panics nil_dereference.
Proof.
  intros Hssh Hsplit Hparse. unfold Auth.
  now rewrite Hssh, (ssh_user_panics env (Repo opts) _ _ _ Hsplit Hparse).
Qed.

Lemma Auth_nil_dereference_witness :
  Auth Sample.env Sample.bad_escape = Panics nil_dereference.
Proof.
  apply (Auth_nil_dereference Sample.env Sample.bad_escape
           Sample.deploy_key "git@exa%mple.org" "org/repo.git"
           (errors_New "invalid URL escape"));
    reflexivity.
Defined.


(** * Further properties of the package *)

(** ** What Validate accepts *)

(** Split every remaining test of an unfolded body. *)
Ltac split_tests :=
  repeat match goal with
         | |- context [if ?b then _ else _] => destruct b eqn:?
         end.

Ltac close_acceptable :=
  intros;
  first [ reflexivity
        | discriminate
        | now left
        | now right
        | match goal with
          | H : Some _ = Some _ |- _ => injection H as <-; discriminate
          end ].

(** What follows from a nil result of [Validate]. *)
Lemma Validate_nil_acceptable (opts : Options) :
  Validate opts = None -> acceptable opts.
Proof.
  unfold acceptable. rewrite <- sha_rejected_false, <- is_empty_false.
  rewrite <- !is_nil_false.
  open_validate.
  destruct (is_empty (Repo opts)); [discriminate |].
  destruct (sha_rejected (SHA opts)); [discriminate |].
  destruct (worktree opts) as [wt |], (storage opts) as [st |],
    (BasicAuth opts) as [[[| u us] [| p ps]] |],
    (SSHAuth opts) as [[[| k ks] phrase] |];
    simpl; first [ discriminate | intros _; repeat split; close_acceptable ].
Qed.

(** X1: Validate returns nil exactly for the acceptable Options values:
    non-empty Repo, a SHA of 40 hexadecimal characters, at most one auth
    mode, non-empty Username and Password when BasicAuth is set,
    non-empty PEMPath when SSHAuth is set, and worktree and storage both
    non-nil.  Directory and RemoveDotGit play no part. *)
Theorem Validate_nil_iff (opts : Options) :
  Validate opts = None <-> acceptable opts.
Proof.
  split; [apply Validate_nil_acceptable |].
  intros (Hrepo & Hsha & Hone & Hbasic & Hssh & Hwt & Hst).
  apply is_empty_false in Hrepo. apply sha_rejected_false in Hsha.
  apply is_nil_false in Hwt, Hst.
  open_validate. rewrite Hrepo, Hsha, Hwt, Hst.
  destruct (BasicAuth opts) as [[user pass] |], (SSHAuth opts) as [[pem phrase] |];
    simpl.
  - destruct Hone as [Hone | Hone]; discriminate Hone.
  - destruct (Hbasic _ eq_refl) as [Hu Hp]. cbn in Hu, Hp.
    apply is_empty_false in Hu, Hp. now rewrite Hu, Hp.
  - pose proof (Hssh _ eq_refl) as Hk. cbn in Hk.
    apply is_empty_false in Hk. now rewrite Hk.
  - reflexivity.
Qed.

(** ** Validate and Auth together *)

(** X2: for Options that Validate accepts, Auth never meets an empty
    basic-auth field: with BasicAuth set it returns the HTTP credential
    made of that non-empty Username and Password, and with neither auth
    mode set it returns a nil credential and a nil error. *)
Theorem Auth_after_Validate (env : Env) (opts : Options) :
  Validate opts = None ->
  (forall basic, BasicAuth opts = Some basic ->
     Auth env opts
     = Returns (Some (auth_http {| http_Username := Username basic;
                                   http_Password := Password basic |}), None)
     /\ Username basic <> EmptyString
     /\ Password basic <> EmptyString)
  /\ (BasicAuth opts = None -> SSHAuth opts = None ->
      Auth env opts = Returns (None, None)).
Proof.
  intros Hok. apply Validate_nil_acceptable in Hok.
  destruct Hok as (_ & _ & Hone & Hbasic & _). split.
  - intros basic Hsome.
    destruct Hone as [Hnone | Hnone]; [congruence |].
    rewrite (Auth_without_ssh env opts Hnone), Hsome.
    destruct (Hbasic basic Hsome) as [Hu Hp]. now repeat split.
  - intros Hnone Hssh. now rewrite (Auth_without_ssh env opts Hssh), Hnone.
Qed.

Lemma Auth_after_Validate_witness :
  Auth Sample.env (Sample.backed Sample.dev_options)
  = Returns (Some (auth_http {| http_Username := "dev";
                                http_Password := "s3cret" |}), None).
Proof.
  exact (proj1 (proj1
    (Auth_after_Validate Sample.env (Sample.backed Sample.dev_options) eq_refl)
    Sample.dev eq_refl)).
Defined.

(** ** SetStorageMode as a whole *)

(** The two ways a call of [SetStorageMode] can end. *)
Lemma SetStorageMode_cases (env : Env) (opts : Options) (mode : StorageMode) :
  (returned_error (SetStorageMode env opts mode) = None
   /\ exists wt st,
        options_after (SetStorageMode env opts mode) = set_backend opts wt st)
  \/ (returned_error (SetStorageMode env opts mode) <> None
      /\ options_after (SetStorageMode env opts mode) = opts).
Proof.
  unfold returned_error, options_after, SetStorageMode.
  destruct (is_empty (Directory opts));
    [right; split; [discriminate | reflexivity] |].
  destruct (String.eqb mode FileSystemStorageMode).
  - destruct (filepath_Abs env (Directory opts)) as [absDir [err |]];
      [right; split; [discriminate | reflexivity] |].
    destruct (fs_Chroot env (osfs_New absDir) git_GitDirName)
      as [dotGit [err |]];
      [right; split; [discriminate | reflexivity] |].
    left. split; [reflexivity |]. now eexists _, _.
  - destruct (String.eqb mode MemoryStorageMode).
    + left. split; [reflexivity |]. now eexists _, _.
    + right. split; [discriminate | reflexivity].
Qed.

(** X3: SetStorageMode is all or nothing, for every mode and on every
    machine: either it returns no error and both GetWorkTree and
    GetStorage are non-nil afterwards, or it returns an error and the
    Options value is exactly what it was. *)
Theorem SetStorageMode_all_or_nothing
  (env : Env) (opts : Options) (mode : StorageMode) :
  (returned_error (SetStorageMode env opts mode) = None
   /\ GetWorkTree (options_after (SetStorageMode env opts mode)) <> None
   /\ GetStorage (options_after (SetStorageMode env opts mode)) <> None)
  \/ (returned_error (SetStorageMode env opts mode) <> None
      /\ options_after (SetStorageMode env opts mode) = opts).
Proof.
  destruct (SetStorageMode_cases env opts mode)
    as [(Hok & wt & st & Hafter) | Hfail]; [left | now right].
  rewrite Hafter. repeat split; [assumption | discriminate | discriminate].
Qed.

(** X4: SetStorageMode never touches the user-supplied fields: Repo,
    SHA, Directory, RemoveDotGit, BasicAuth and SSHAuth are the same
    after the call, whatever the mode and the outcome. *)
Theorem SetStorageMode_frame
  (env : Env) (opts : Options) (mode : StorageMode) :
  Repo (options_after (SetStorageMode env opts mode)) = Repo opts
  /\ SHA (options_after (SetStorageMode env opts mode)) = SHA opts
  /\ Directory (options_after (SetStorageMode env opts mode)) = Directory opts
  /\ RemoveDotGit (options_after (SetStorageMode env opts mode))
     = RemoveDotGit opts
  /\ BasicAuth (options_after (SetStorageMode env opts mode)) = BasicAuth opts
  /\ SSHAuth (options_after (SetStorageMode env opts mode)) = SSHAuth opts.
Proof.
  destruct (SetStorageMode_cases env opts mode)
    as [(_ & wt & st & Hafter) | (_ & Hafter)];
    rewrite Hafter; now repeat split.
Qed.

(** The one error of [Validate] about the backend comes only from a nil
    worktree or storage. *)
Lemma Validate_storage_error (opts : Options) :
  Validate opts = Some (errors_New msg_storage) ->
  worktree opts = None \/ storage opts = None.
Proof.
  open_validate.
  destruct (worktree opts), (storage opts); try (intros _; now auto);
    destruct (is_empty (Repo opts)), (sha_rejected (SHA opts)),
      (BasicAuth opts) as [[[| u us] [| p ps]] |],
      (SSHAuth opts) as [[[| k ks] phrase] |]; simpl; discriminate.
Qed.

(** X5: once SetStorageMode has returned without error, Validate no
    longer reports that the filesystem storage is not initialised,
    whatever else it may find. *)
Theorem Validate_after_SetStorageMode
  (env : Env) (opts : Options) (mode : StorageMode) :
  returned_error (SetStorageMode env opts mode) = None ->
  Validate (options_after (SetStorageMode env opts mode))
  <> Some (errors_New msg_storage).
Proof.
  intros Hok Hbad. apply Validate_storage_error in Hbad.
  destruct (SetStorageMode_cases env opts mode)
    as [(_ & wt & st & Hafter) | (Herr & _)]; [| contradiction].
  rewrite Hafter in Hbad. destruct Hbad as [H | H]; discriminate H.
Qed.

Lemma Validate_after_SetStorageMode_witness :
  Validate (options_after
              (SetStorageMode Sample.env (Sample.pinned "r") MemoryStorageMode))
  <> Some (errors_New msg_storage).
Proof.
  apply (Validate_after_SetStorageMode Sample.env (Sample.pinned "r")
           MemoryStorageMode).
  reflexivity.
Defined.

(** ** Which repositories make Auth panic *)

(** [strings.Split] returns one piece more than there are separators. *)
Lemma strings_Split_length (s : string) (sep : ascii) :
  List.length (strings_Split s sep) = S (count_byte s sep).
Proof.
  induction s as [| c rest IH]; [reflexivity |].
  cbn [strings_Split count_byte].
  destruct (Ascii.eqb c sep).
  - cbn [List.length]. now rewrite IH.
  - destruct (strings_Split rest sep) as [| piece pieces];
      [discriminate IH |]. exact IH.
Qed.

(** Unless the address has exactly one colon the user is git and
    [url.Parse] is not called. *)
Lemma ssh_user_without_single_colon (env : Env) (repo : string) :
  count_byte repo ":"%char <> 1 ->
  ssh_user env repo = Returns "git".
Proof.
  intros Hcount. unfold ssh_user. rewrite strings_Split_length.
  destruct (Nat.eqb_spec (S (count_byte repo ":"%char)) 2) as [Heq | _];
    [| reflexivity].
  exfalso. apply Hcount. now injection Heq.
Qed.

(** X6: for a Repo with no colon, or with more than one (a URL with a
    scheme and a port, say), the result of Auth does not depend on
    url.Parse: with SSHAuth set, Auth does not panic and returns what
    the key loader gives for the user git, on every machine. *)
Theorem Auth_without_single_colon (env : Env) (opts : Options)
  (ssh : SSHAuthOptions) :
  SSHAuth opts = Some ssh ->
  count_byte (Repo opts) ":"%char <> 1 ->
  Auth env opts = ssh_result env "git" ssh.
Proof.
  intros Hssh Hcount.
  apply (Auth_with_ssh env opts ssh "git" Hssh).
  now apply ssh_user_without_single_colon.
Qed.

Lemma Auth_without_single_colon_witness :
  Auth Sample.env
    (Sample.with_auth (Sample.pinned "ssh://git@exa%mple.org:22/r.git") None
       (Some Sample.deploy_key))
  = ssh_result Sample.env "git" Sample.deploy_key.
Proof.
  apply Auth_without_single_colon; [reflexivity |].
  vm_compute. discriminate.
Defined.

Lemma Sample_env_nil_on_error (cwd : option string) :
  nil_on_error (Sample.env_at cwd).
Proof.
  intros raw parsed err. cbn [url_Parse Sample.env_at]. unfold Sample.parse_path.
  destruct (Sample.has_control raw); [congruence |].
  destruct (negb (Sample.escapes_ok raw)); [congruence | discriminate].
Qed.

(** X7: with SSHAuth set, and url.Parse returning a nil URL whenever it
    returns an error, Auth panics exactly when Repo has a single colon
    and url.Parse rejects the piece before it; in every other case it
    returns what the key loader gives for the user git, so a user name
    written in the address is never used. *)
Theorem Auth_ssh_panics_iff (env : Env) (opts : Options)
  (ssh : SSHAuthOptions) :
  nil_on_error env ->
  SSHAuth opts = Some ssh ->
  (Auth env opts = Panics nil_dereference
   <-> count_byte (Repo opts) ":"%char = 1
       /\ snd (url_Parse env
                 (nth 0 (strings_Split (Repo opts) ":"%char) EmptyString))
          <> None)
  /\ (Auth env opts = Panics nil_dereference
      \/ Auth env opts = ssh_result env "git" ssh).
Proof.
  intros Hnil Hssh.
  destruct (Nat.eq_dec (count_byte (Repo opts) ":"%char) 1) as [Hone | Hmany].
  - assert (Hlen : Nat.eqb (List.length (strings_Split (Repo opts) ":"%char)) 2
                   = true)
      by (rewrite strings_Split_length, Hone; reflexivity).
    destruct (url_Parse env
                (nth 0 (strings_Split (Repo opts) ":"%char) EmptyString))
      as [parsed [err |]] eqn:Hparse.
    + pose proof (Hnil _ _ _ Hparse) as ->.
      assert (Hpanic : Auth env opts = Panics nil_dereference).
      { unfold Auth, ssh_user. now rewrite Hssh, Hlen, Hparse. }
      split; [| now left].
      split; [intros _; split; [assumption | discriminate] | intros _; assumption].
    + assert (Hret : Auth env opts = ssh_result env "git" ssh).
      { apply (Auth_with_ssh env opts ssh "git" Hssh).
        unfold ssh_user. now rewrite Hlen, Hparse. }
      split; [| now right].
      rewrite Hret. split; [discriminate | intros [_ H]; now contradiction H].
  - assert (Hret : Auth env opts = ssh_result env "git" ssh).
    { apply (Auth_with_ssh env opts ssh "git" Hssh).
      now apply ssh_user_without_single_colon. }
    split; [| now right].
    rewrite Hret. split; [discriminate | intros [H _]; contradiction].
Qed.

Lemma Auth_ssh_panics_iff_witness :
  Auth Sample.env
    (Sample.with_auth (Sample.pinned "deploy@example.org:org/repo.git") None
       (Some Sample.deploy_key))
  = Panics nil_dereference
  \/ Auth Sample.env
       (Sample.with_auth (Sample.pinned "deploy@example.org:org/repo.git") None
          (Some Sample.deploy_key))
     = ssh_result Sample.env "git" Sample.deploy_key.
Proof.
  exact (proj2
    (Auth_ssh_panics_iff Sample.env
       (Sample.with_auth (Sample.pinned "deploy@example.org:org/repo.git") None
          (Some Sample.deploy_key))
       Sample.deploy_key (Sample_env_nil_on_error _) eq_refl)).
Defined.

(** ** BindFlags *)

Module FlagExamples.
Import Sample SampleFlags.

Example plain_flags :
  BindFlags blank plain
  = (None,
     {| Repo := EmptyString; SHA := EmptyString; Directory := "checkout";
        RemoveDotGit := true; BasicAuth := None; SSHAuth := None;
        storage := None; worktree := None |}).
Proof. reflexivity. Qed.

Example password_alone_allocates :
  BasicAuth (snd (BindFlags blank token_only))
  = Some {| Username := EmptyString; Password := "tok" |}.
Proof. reflexivity. Qed.

Example empty_flag_keeps_field :
  BasicAuth (snd (BindFlags dev_options token_only))
  = Some {| Username := "dev"; Password := "tok" |}.
Proof. reflexivity. Qed.

Example failure_after_assignments :
  BindFlags blank mistyped_rm
  = (Some (wrong_type "bool" (string_flag "yes")),
     {| Repo := EmptyString; SHA := EmptyString; Directory := "checkout";
        RemoveDotGit := false; BasicAuth := Some dev; SSHAuth := None;
        storage := None; worktree := None |}).
Proof. reflexivity. Qed.

Example undefined_flag :
  BindFlags dev_options (flag_set []) = (Some (not_defined "directory"), dev_options).
Proof. reflexivity. Qed.
End FlagExamples.

(** Case analysis on the six lookups. *)
Ltac split_lookups flags :=
  destruct (GetString flags "directory") as [dir [e_dir |]],
    (GetString flags "username") as [username [e_username |]],
    (GetString flags "password") as [password [e_password |]],
    (GetString flags "key-path") as [keyPath [e_keyPath |]],
    (GetString flags "key-passphrase") as [keyPhrase [e_keyPhrase |]],
    (GetBool flags "rm-dotgit") as [rmDotGit [e_rmDotGit |]].

(** When every lookup succeeds, [BindFlags] is its six assignments in
    a row. *)
Lemma BindFlags_all_found (opts : Options) (flags : FlagSet) :
  first_error (lookup_errors flags) = None ->
  BindFlags opts flags =
    (None,
     set_RemoveDotGit
       (bind_key_passphrase
          (bind_key_path
             (bind_password
                (bind_username
                   (set_Directory opts (fst (GetString flags "directory")))
                   (fst (GetString flags "username")))
                (fst (GetString flags "password")))
             (fst (GetString flags "key-path")))
          (fst (GetString flags "key-passphrase")))
       (fst (GetBool flags "rm-dotgit"))).
Proof.
  unfold BindFlags, lookup_errors.
  split_lookups flags; simpl; intros Herr; try discriminate Herr; reflexivity.
Qed.

(** X8: BindFlags fails exactly when one of its six flags cannot be
    read, and the error it returns is that of the first such flag in
    the order directory, username, password, key-path, key-passphrase,
    rm-dotgit; the Options value has no influence on it. *)
Theorem BindFlags_first_error (opts : Options) (flags : FlagSet) :
  fst (BindFlags opts flags) = first_error (lookup_errors flags).
Proof.
  unfold BindFlags, lookup_errors.
  split_lookups flags; reflexivity.
Qed.

(** X9: BindFlags never touches Repo, SHA, storage or worktree, whether
    it succeeds or fails. *)
Theorem BindFlags_frame (opts : Options) (flags : FlagSet) :
  Repo (snd (BindFlags opts flags)) = Repo opts
  /\ SHA (snd (BindFlags opts flags)) = SHA opts
  /\ storage (snd (BindFlags opts flags)) = storage opts
  /\ worktree (snd (BindFlags opts flags)) = worktree opts.
Proof.
  unfold BindFlags, bind_username, bind_password, bind_key_path,
    bind_key_passphrase.
  split_lookups flags; cbn [snd]; split_tests; now repeat split.
Qed.

(** X10: when all six flags can be read, Directory and RemoveDotGit
    take the flag values; each of Username, Password, PEMPath and
    Passphrase takes its flag value when that is non-empty and keeps
    its old value otherwise; and an auth struct is allocated only when
    it was nil and one of its two flags is non-empty. *)
Theorem BindFlags_overlay (opts : Options) (flags : FlagSet) :
  first_error (lookup_errors flags) = None ->
  Directory (snd (BindFlags opts flags)) = fst (GetString flags "directory")
  /\ RemoveDotGit (snd (BindFlags opts flags)) = fst (GetBool flags "rm-dotgit")
  /\ Username_of (BasicAuth (snd (BindFlags opts flags)))
     = overlay (fst (GetString flags "username")) (Username_of (BasicAuth opts))
  /\ Password_of (BasicAuth (snd (BindFlags opts flags)))
     = overlay (fst (GetString flags "password")) (Password_of (BasicAuth opts))
  /\ PEMPath_of (SSHAuth (snd (BindFlags opts flags)))
     = overlay (fst (GetString flags "key-path")) (PEMPath_of (SSHAuth opts))
  /\ Passphrase_of (SSHAuth (snd (BindFlags opts flags)))
     = overlay (fst (GetString flags "key-passphrase"))
         (Passphrase_of (SSHAuth opts))
  /\ is_nil (BasicAuth (snd (BindFlags opts flags)))
     = is_nil (BasicAuth opts)
       && is_empty (fst (GetString flags "username"))
       && is_empty (fst (GetString flags "password"))
  /\ is_nil (SSHAuth (snd (BindFlags opts flags)))
     = is_nil (SSHAuth opts)
       && is_empty (fst (GetString flags "key-path"))
       && is_empty (fst (GetString flags "key-passphrase")).
Proof.
  intros Hfound. rewrite (BindFlags_all_found opts flags Hfound). cbn [snd].
  destruct opts as [repo sha dir rm basic ssh st wt].
  destruct (fst (GetString flags "username")),
    (fst (GetString flags "password")),
    (fst (GetString flags "key-path")),
    (fst (GetString flags "key-passphrase")),
    basic as [[user pass] |], ssh as [[pem phrase] |];
    cbv; now repeat split.
Qed.

Lemma BindFlags_overlay_witness :
  Username_of (BasicAuth (snd (BindFlags Sample.dev_options SampleFlags.token_only)))
  = "dev"
  /\ Password_of (BasicAuth (snd (BindFlags Sample.dev_options SampleFlags.token_only)))
     = "tok".
Proof.
  pose proof (BindFlags_overlay Sample.dev_options SampleFlags.token_only eq_refl)
    as (_ & _ & Hu & Hp & _).
  exact (conj Hu Hp).
Defined.

(** X11: BindFlags is not transactional.  Only a failure of the first
    lookup leaves the Options value untouched; once the directory flag
    has been read, Directory holds it after the call even when a later
    lookup fails and an error is returned. *)
Theorem BindFlags_keeps_assignments (opts : Options) (flags : FlagSet) :
  (snd (GetString flags "directory") <> None ->
   snd (BindFlags opts flags) = opts)
  /\ (snd (GetString flags "directory") = None ->
      Directory (snd (BindFlags opts flags))
      = fst (GetString flags "directory")).
Proof.
  unfold BindFlags, bind_username, bind_password, bind_key_path,
    bind_key_passphrase.
  split_lookups flags; cbn [fst snd]; split;
    try (intros H; now contradiction H); try discriminate;
    intros _; split_tests; reflexivity.
Qed.

(** X12: BindFlags is idempotent: binding the same flag set a second
    time returns the same error and leaves the same Options value. *)
Theorem BindFlags_idempotent (opts : Options) (flags : FlagSet) :
  BindFlags (snd (BindFlags opts flags)) flags = BindFlags opts flags.
Proof.
  destruct opts as [repo sha dir0 rm basic ssh st wt]. unfold BindFlags.
  destruct (GetString flags "directory") as [dir [e |]]; [reflexivity |].
  destruct (GetString flags "username") as [username [e |]];
    [reflexivity | destruct username].
  all: destruct (GetString flags "password") as [password [e |]];
    [reflexivity | destruct password].
  all: destruct (GetString flags "key-path") as [keyPath [e |]];
    [reflexivity | destruct keyPath].
  all: destruct (GetString flags "key-passphrase") as [keyPhrase [e |]];
    [reflexivity | destruct keyPhrase].
  all: destruct (GetBool flags "rm-dotgit") as [rmDotGit [e |]]; reflexivity.
Qed.

(** ** From the command line to Validate *)

(** The options as [Validate] sees them after a successful [BindFlags]
    that brought no SSH flag to Options without SSH settings. *)
Lemma BindFlags_without_ssh_flags (opts : Options) (flags : FlagSet) :
  first_error (lookup_errors flags) = None ->
  SSHAuth opts = None ->
  fst (GetString flags "key-path") = EmptyString ->
  fst (GetString flags "key-passphrase") = EmptyString ->
  snd (BindFlags opts flags) =
    set_RemoveDotGit
      (bind_password
         (bind_username
            (set_Directory opts (fst (GetString flags "directory")))
            (fst (GetString flags "username")))
         (fst (GetString flags "password")))
      (fst (GetBool flags "rm-dotgit")).
Proof.
  intros Hfound Hssh Hpath Hphrase.
  rewrite (BindFlags_all_found opts flags Hfound), Hpath, Hphrase.
  reflexivity.
Qed.

(** X13: a password given without a user name is refused.  Starting
    from Options with a valid Repo and SHA and no auth settings, when
    the flags carry a non-empty password, an empty username and no SSH
    flag, BindFlags succeeds and Validate then returns the error naming
    the username key. *)
Theorem password_without_username (opts : Options) (flags : FlagSet) :
  first_error (lookup_errors flags) = None ->
  Repo opts <> EmptyString ->
  forty_hex_characters (SHA opts) ->
  BasicAuth opts = None ->
  SSHAuth opts = None ->
  fst (GetString flags "username") = EmptyString ->
  fst (GetString flags "password") <> EmptyString ->
  fst (GetString flags "key-path") = EmptyString ->
  fst (GetString flags "key-passphrase") = EmptyString ->
  fst (BindFlags opts flags) = None
  /\ Validate (snd (BindFlags opts flags))
     = Some (invalid "username" msg_username).
Proof.
  intros Hfound Hrepo Hsha Hbasic Hssh Huser Hpass Hpath Hphrase.
  split; [now rewrite (BindFlags_all_found _ flags Hfound) |].
  rewrite (BindFlags_without_ssh_flags opts flags Hfound Hssh Hpath Hphrase).
  rewrite Huser. apply is_empty_false in Hrepo, Hpass.
  apply sha_rejected_false in Hsha.
  unfold bind_password, bind_username. cbn [is_empty negb]. rewrite Hpass.
  open_validate. simpl. now rewrite Hrepo, Hsha, Hbasic, Hssh.
Qed.

Lemma password_without_username_witness :
  Validate (snd (BindFlags (Sample.pinned "https://example.org/r.git")
                   SampleFlags.token_only))
  = Some (invalid "username" msg_username).
Proof.
  refine (proj2 (password_without_username
                   (Sample.pinned "https://example.org/r.git")
                   SampleFlags.token_only eq_refl _ _ eq_refl eq_refl eq_refl
                   _ eq_refl eq_refl)).
  - discriminate.
  - apply sha_rejected_false. reflexivity.
  - discriminate.
Defined.

(** X14: a key passphrase given without a key path is refused.
    Starting from Options with a valid Repo and SHA and no auth
    settings, when the flags carry a non-empty key-passphrase, an empty
    key-path and no basic-auth flag, BindFlags succeeds and Validate
    then returns the error naming the key-path key. *)
Theorem passphrase_without_key_path (opts : Options) (flags : FlagSet) :
  first_error (lookup_errors flags) = None ->
  Repo opts <> EmptyString ->
  forty_hex_characters (SHA opts) ->
  BasicAuth opts = None ->
  SSHAuth opts = None ->
  fst (GetString flags "username") = EmptyString ->
  fst (GetString flags "password") = EmptyString ->
  fst (GetString flags "key-path") = EmptyString ->
  fst (GetString flags "key-passphrase") <> EmptyString ->
  fst (BindFlags opts flags) = None
  /\ Validate (snd (BindFlags opts flags))
     = Some (invalid "key-path" msg_key_path).
Proof.
  intros Hfound Hrepo Hsha Hbasic Hssh Huser Hpass Hpath Hphrase.
  split; [now rewrite (BindFlags_all_found _ flags Hfound) |].
  rewrite (BindFlags_all_found opts flags Hfound), Huser, Hpass, Hpath.
  apply is_empty_false in Hrepo, Hphrase. apply sha_rejected_false in Hsha.
  unfold bind_key_passphrase, bind_key_path, bind_password, bind_username.
  cbn [is_empty negb]. rewrite Hphrase.
  open_validate. simpl. now rewrite Hrepo, Hsha, Hbasic, Hssh.
Qed.

Lemma passphrase_without_key_path_witness :
  Validate (snd (BindFlags (Sample.pinned "git@example.org:r.git")
                   SampleFlags.passphrase_only))
  = Some (invalid "key-path" msg_key_path).
Proof.
  refine (proj2 (passphrase_without_key_path
                   (Sample.pinned "git@example.org:r.git")
                   SampleFlags.passphrase_only eq_refl _ _ eq_refl eq_refl
                   eq_refl eq_refl eq_refl _)).
  - discriminate.
  - apply sha_rejected_false. reflexivity.
  - discriminate.
Defined.

(** X15: the whole sequence on a command line with basic auth.  From
    Options without SSH settings, BindArgs with a non-empty repo and a
    SHA of 40 hexadecimal characters, then BindFlags with a non-empty
    directory, username and password and no SSH flag, then
    SetStorageMode with mode mem all return no error; Validate then
    accepts the result, and Auth returns the HTTP credential made of
    the two flag values. *)
Theorem command_line_with_basic_auth (env : Env) (opts : Options)
  (flags : FlagSet) (repo sha : string) :
  SSHAuth opts = None ->
  repo <> EmptyString ->
  forty_hex_characters sha ->
  first_error (lookup_errors flags) = None ->
  fst (GetString flags "directory") <> EmptyString ->
  fst (GetString flags "username") <> EmptyString ->
  fst (GetString flags "password") <> EmptyString ->
  fst (GetString flags "key-path") = EmptyString ->
  fst (GetString flags "key-passphrase") = EmptyString ->
  fst (BindArgs opts [repo; sha]) = None
  /\ fst (BindFlags (snd (BindArgs opts [repo; sha])) flags) = None
  /\ returned_error
       (SetStorageMode env
          (snd (BindFlags (snd (BindArgs opts [repo; sha])) flags))
          MemoryStorageMode) = None
  /\ Validate
       (options_after
          (SetStorageMode env
             (snd (BindFlags (snd (BindArgs opts [repo; sha])) flags))
             MemoryStorageMode)) = None
  /\ Auth env
       (options_after
          (SetStorageMode env
             (snd (BindFlags (snd (BindArgs opts [repo; sha])) flags))
             MemoryStorageMode))
     = Returns (Some (auth_http
                  {| http_Username := fst (GetString flags "username");
                     http_Password := fst (GetString flags "password") |}),
                None).
Proof.
  intros Hssh Hrepo Hsha Hfound Hdir Huser Hpass Hpath Hphrase.
  split; [reflexivity |].
  split; [now rewrite (BindFlags_all_found _ flags Hfound) |].
  rewrite (BindFlags_without_ssh_flags (snd (BindArgs opts [repo; sha])) flags
             Hfound Hssh Hpath Hphrase).
  destruct opts as [repo0 sha0 dir0 rm0 basic ssh st wt].
  cbn [SSHAuth] in Hssh. subst ssh.
  destruct (fst (GetString flags "directory")) as [| d ds];
    [now contradiction Hdir |].
  destruct (fst (GetString flags "username")) as [| u us];
    [now contradiction Huser |].
  destruct (fst (GetString flags "password")) as [| p ps];
    [now contradiction Hpass |].
  destruct repo as [| r rs]; [now contradiction Hrepo |].
  apply sha_rejected_false in Hsha.
  set (bound := set_RemoveDotGit _ _).
  assert (Hbound : bound =
    {| Repo := String r rs; SHA := sha; Directory := String d ds;
       RemoveDotGit := fst (GetBool flags "rm-dotgit");
       BasicAuth := Some {| Username := String u us; Password := String p ps |};
       SSHAuth := None; storage := st; worktree := wt |})
    by reflexivity.
  clearbody bound. subst bound.
  repeat split.
  open_validate. cbn. now rewrite Hsha.
Qed.

Lemma command_line_with_basic_auth_witness :
  Validate
    (options_after
       (SetStorageMode Sample.env
          (snd (BindFlags
                  (snd (BindArgs Sample.blank
                          ["https://example.org/r.git"; Sample.sha1]))
                  SampleFlags.basic_auth))
          MemoryStorageMode))
  = None.
Proof.
  refine (proj1 (proj2 (proj2 (proj2
    (command_line_with_basic_auth Sample.env Sample.blank
       SampleFlags.basic_auth "https://example.org/r.git" Sample.sha1
       eq_refl _ _ eq_refl _ _ _ eq_refl eq_refl))))).
  - discriminate.
  - apply sha_rejected_false. reflexivity.
  - discriminate.
  - discriminate.
  - discriminate.
Defined.

(** X16: BindArgs checks nothing but the number of arguments; the
    checking of what was bound is left to Validate.  After BindArgs with
    two arguments, Validate returns the error naming the repo key
    exactly when the first argument is empty, and the error naming the
    sha key exactly when the first is non-empty and the second is not a
    string of 40 hexadecimal characters. *)
Theorem Validate_after_BindArgs (opts : Options) (repo sha : string) :
  (Validate (snd (BindArgs opts [repo; sha])) = Some (invalid "repo" msg_repo)
   <-> repo = EmptyString)
  /\ (Validate (snd (BindArgs opts [repo; sha])) = Some (invalid "sha" msg_sha)
      <-> repo <> EmptyString /\ ~ forty_hex_characters sha).
Proof.
  rewrite <- sha_rejected_true. cbn [BindArgs List.length Nat.eqb negb snd].
  split.
  - split; [| intros ->; reflexivity].
    destruct repo as [| r rs]; [reflexivity |].
    intros Hrepo. exfalso. revert Hrepo.
    open_validate. cbn [Repo SHA nth is_empty].
    destruct (sha_rejected sha); [discriminate |].
    destruct (BasicAuth opts) as [[[| u us] [| p ps]] |],
      (SSHAuth opts) as [[[| k ks] phrase] |],
      (worktree opts), (storage opts); discriminate.
  - split.
    + intros Hsha. split.
      * intros ->. discriminate Hsha.
      * apply Validate_sha_error_only_from_sha in Hsha. exact Hsha.
    + intros [Hrepo Hsha]. apply is_empty_false in Hrepo.
      open_validate. cbn [Repo SHA nth]. now rewrite Hrepo, Hsha.
Qed.
